(** * Vulkan render-pass / framebuffer cache of the Citra Vulkan renderer

    Shallow embedding of [src/video_core/renderer_vulkan/vk_renderpass_cache.h]
    and of its implementation [vk_renderpass_cache.cpp] (RenderpassCache).

    - Vulkan handles ([vk::ImageView], [vk::RenderPass], [vk::Framebuffer])
      are 64-bit integers, [0] being [VK_NULL_HANDLE].
    - [VideoCore::PixelFormat] is an enum with underlying type [u32]; its
      ordinal is a [Z] in [0, 2^32).
    - [vk::ClearValue] is a C union of 16 bytes ([color] as four 32-bit
      lanes, or [depthStencil] = {float depth; u32 stencil} overlaying the
      first two lanes); it is modelled by its four 32-bit words.
    - The device and the scheduler are part of the state: every
      [createRenderPassUnique] / [createFramebufferUnique] call hands out a
      fresh handle and is logged, every [scheduler.Record] appends a command.
    - A failing [ASSERT_MSG] terminates the process: the operations return
      [None] then. *)

From Stdlib Require Import ZArith Bool List Lia Btauto.
From stdpp Require Import base gmap countable.
Import ListNotations.
Local Open Scope Z_scope.

(** ** Vulkan and VideoCore data *)

Definition ImageView := Z.
Definition RenderPass := Z.
Definition VkFramebuffer := Z.
Definition VK_NULL_HANDLE : Z := 0.

(** [std::array<vk::ImageView, 2>]: color view, depth view. *)
Definition Views := (ImageView * ImageView)%type.

Definition views_eqb (a b : Views) : bool :=
  (fst a =? fst b) && (snd a =? snd b).

(** [vk::Format]: only [eUndefined] (= 0) is distinguished by the code. *)
Definition VkFormat := Z.
Definition eUndefined : VkFormat := 0.

(** [VideoCore::PixelFormat : u32]. *)
Definition PixelFormat := Z.
(** [PixelFormat::Invalid] is [std::numeric_limits<u32>::max()]. *)
Definition PixelFormat_Invalid : PixelFormat := 4294967295.

Inductive SurfaceType := Color | Depth.

Record Rect2D := {
  offset_x : Z;
  offset_y : Z;
  extent_width : Z;
  extent_height : Z;
}.

Definition Rect2D_zero : Rect2D := {| offset_x := 0; offset_y := 0;
  extent_width := 0; extent_height := 0 |}.

(** [vk::ClearValue], a union: the four 32-bit lanes of [color]. *)
Record ClearValue := {
  cv_w0 : Z; cv_w1 : Z; cv_w2 : Z; cv_w3 : Z;
}.

Definition ClearValue_zero : ClearValue :=
  {| cv_w0 := 0; cv_w1 := 0; cv_w2 := 0; cv_w3 := 0 |}.

(** [vk::ClearDepthStencilValue { float depth; uint32_t stencil; }]: the
    [depthStencil] member of the union overlays lanes 0 and 1. *)
Record ClearDepthStencilValue := {
  ds_depth : Z;   (* bit pattern of the IEEE-754 binary32 depth *)
  ds_stencil : Z;
}.

Definition depthStencil (c : ClearValue) : ClearDepthStencilValue :=
  {| ds_depth := cv_w0 c; ds_stencil := cv_w1 c |}.

(** IEEE-754 binary32 [==] on bit patterns: NaN equals nothing, and
    [+0.0 == -0.0]. *)
Definition f32_is_nan (w : Z) : bool :=
  (Z.land (Z.shiftr w 23) 255 =? 255) && negb (Z.land w 8388607 =? 0).

Definition f32_is_zero (w : Z) : bool := Z.land w 2147483647 =? 0.

Definition f32_eqb (a b : Z) : bool :=
  negb (f32_is_nan a) && negb (f32_is_nan b) &&
  ((a =? b) || (f32_is_zero a && f32_is_zero b)).

(** [ClearDepthStencilValue::operator==]: [depth == rhs.depth && stencil == rhs.stencil]. *)
Definition ClearDepthStencilValue_eqb (a b : ClearDepthStencilValue) : bool :=
  f32_eqb (ds_depth a) (ds_depth b) && (ds_stencil a =? ds_stencil b).

(** The [Framebuffer] surface object passed to [BeginRendering]. *)
Record Framebuffer := {
  ImageViews : Views;
  Width : Z;
  Height : Z;
  FormatColor : PixelFormat;
  FormatDepth : PixelFormat;
  RenderArea : Rect2D;
}.

Definition Format (fb : Framebuffer) (t : SurfaceType) : PixelFormat :=
  match t with Color => FormatColor fb | Depth => FormatDepth fb end.

(** [struct FramebufferInfo]. *)
Record FramebufferInfo := {
  fi_color : ImageView;
  fi_depth : ImageView;
  fi_width : Z;
  fi_height : Z;
}.

#[global] Instance FramebufferInfo_eq_dec : EqDecision FramebufferInfo.
Proof. solve_decision. Defined.

#[global] Program Instance FramebufferInfo_countable : Countable FramebufferInfo :=
  inj_countable'
    (fun i => (fi_color i, fi_depth i, fi_width i, fi_height i))
    (fun '(c, d, w, h) => {| fi_color := c; fi_depth := d; fi_width := w; fi_height := h |}) _.
Next Obligation. by intros []. Qed.

(** ** Render-pass descriptions built by [CreateRenderPass] *)

Inductive AttachmentLoadOp := eLoad | eClear | eDontCare.
Inductive AttachmentStoreOp := eStore | eStoreDontCare.
Inductive ImageLayout := eLayoutUndefined | eGeneral.

Record AttachmentDescription := {
  ad_format : VkFormat;
  ad_loadOp : AttachmentLoadOp;
  ad_storeOp : AttachmentStoreOp;
  ad_stencilLoadOp : AttachmentLoadOp;
  ad_stencilStoreOp : AttachmentStoreOp;
  ad_initialLayout : ImageLayout;
  ad_finalLayout : ImageLayout;
}.

Record AttachmentReference := {
  ar_attachment : Z;
  ar_layout : ImageLayout;
}.

(** [vk::AttachmentReference{}]. *)
Definition AttachmentReference_default : AttachmentReference :=
  {| ar_attachment := 0; ar_layout := eLayoutUndefined |}.

Record SubpassDescription := {
  sd_inputAttachmentCount : Z;
  sd_colorAttachmentCount : Z;
  sd_pColorAttachments : AttachmentReference;
  sd_pDepthStencilAttachment : option AttachmentReference;  (* None = nullptr *)
}.

(** [vk::RenderPassCreateInfo]; [pAttachments] holds the first
    [attachmentCount] entries of the local [attachments] array. *)
Record RenderPassCreateInfo := {
  rp_attachmentCount : Z;
  rp_pAttachments : list AttachmentDescription;
  rp_subpassCount : Z;
  rp_pSubpasses : list SubpassDescription;
  rp_dependencyCount : Z;
}.

Definition CreateRenderPass_info (color depth : VkFormat) (load_op : AttachmentLoadOp)
  : RenderPassCreateInfo :=
  (* if (color != vk::Format::eUndefined) { ... } *)
  let '(attachments0, attachment_count0, color_attachment_ref, use_color) :=
    if negb (color =? eUndefined) then
      ([{| ad_format := color; ad_loadOp := load_op; ad_storeOp := eStore;
           ad_stencilLoadOp := eDontCare; ad_stencilStoreOp := eStoreDontCare;
           ad_initialLayout := eGeneral; ad_finalLayout := eGeneral |}],
       1,
       {| ar_attachment := 0; ar_layout := eGeneral |},
       true)
    else ([], 0, AttachmentReference_default, false) in
  (* if (depth != vk::Format::eUndefined) { ... } *)
  let '(attachments, attachment_count, depth_attachment_ref, use_depth) :=
    if negb (depth =? eUndefined) then
      (attachments0 ++
         [{| ad_format := depth; ad_loadOp := load_op; ad_storeOp := eStore;
             ad_stencilLoadOp := load_op; ad_stencilStoreOp := eStore;
             ad_initialLayout := eGeneral; ad_finalLayout := eGeneral |}],
       attachment_count0 + 1,
       {| ar_attachment := attachment_count0; ar_layout := eGeneral |},
       true)
    else (attachments0, attachment_count0, AttachmentReference_default, false) in
  let subpass :=
    {| sd_inputAttachmentCount := 0;
       sd_colorAttachmentCount := if use_color then 1 else 0;
       sd_pColorAttachments := color_attachment_ref;
       sd_pDepthStencilAttachment :=
         if use_depth then Some depth_attachment_ref else None |} in
  {| rp_attachmentCount := attachment_count;
     rp_pAttachments := attachments;
     rp_subpassCount := 1;
     rp_pSubpasses := [subpass];
     rp_dependencyCount := 0 |}.

(** [vk::FramebufferCreateInfo]. *)
Record FramebufferCreateInfo := {
  fc_renderPass : RenderPass;
  fc_attachmentCount : Z;
  fc_pAttachments : list ImageView;
  fc_width : Z;
  fc_height : Z;
  fc_layers : Z;
}.

Definition CreateFramebuffer_info (info : FramebufferInfo) (renderpass : RenderPass)
  : FramebufferCreateInfo :=
  let a0 := if negb (fi_color info =? VK_NULL_HANDLE) then [fi_color info] else [] in
  let a := if negb (fi_depth info =? VK_NULL_HANDLE) then a0 ++ [fi_depth info] else a0 in
  {| fc_renderPass := renderpass;
     fc_attachmentCount := Z.of_nat (length a);
     fc_pAttachments := a;
     fc_width := fi_width info;
     fc_height := fi_height info;
     fc_layers := 1 |}.

(** ** External collaborators *)

(** [Instance]: the format traits used by [GetRenderpass]. *)
Record Instance := {
  GetTraits : PixelFormat -> VkFormat;   (* instance.GetTraits(fmt).native *)
}.

(** The device: hands out fresh handles and logs the created objects. *)
Record Device := {
  next_handle : Z;
  created_renderpasses : list (RenderPass * RenderPassCreateInfo);
  created_framebuffers : list (VkFramebuffer * FramebufferCreateInfo);
}.

Definition createRenderPassUnique (d : Device) (ci : RenderPassCreateInfo)
  : RenderPass * Device :=
  (next_handle d,
   {| next_handle := next_handle d + 1;
      created_renderpasses := created_renderpasses d ++ [(next_handle d, ci)];
      created_framebuffers := created_framebuffers d |}).

Definition createFramebufferUnique (d : Device) (ci : FramebufferCreateInfo)
  : VkFramebuffer * Device :=
  (next_handle d,
   {| next_handle := next_handle d + 1;
      created_renderpasses := created_renderpasses d;
      created_framebuffers := created_framebuffers d ++ [(next_handle d, ci)] |}).

(** The commands recorded into the scheduler by this cache. *)
Record RenderPassBeginInfo := {
  bi_renderPass : RenderPass;
  bi_framebuffer : VkFramebuffer;
  bi_renderArea : Rect2D;
  bi_clearValueCount : Z;
  bi_clearValue : ClearValue;   (* *pClearValues *)
}.

Inductive Command :=
  | CmdBeginRenderPass (info : RenderPassBeginInfo)
  | CmdEndRenderPass.

(** ** [class RenderpassCache] *)

Definition MAX_COLOR_FORMATS : Z := 5.
Definition MAX_DEPTH_FORMATS : Z := 4.

(** [struct State]. *)
Record State := {
  st_views : Views;
  st_render_area : Rect2D;
  st_clear : ClearValue;
  st_do_clear : bool;
  st_rendering : bool;
}.

(** [State state{};]: value-initialised. *)
Definition State_init : State :=
  {| st_views := (VK_NULL_HANDLE, VK_NULL_HANDLE);
     st_render_area := Rect2D_zero;
     st_clear := ClearValue_zero;
     st_do_clear := false;
     st_rendering := false |}.

Record RenderpassCache := {
  instance : Instance;
  device : Device;
  scheduler : list Command;   (* commands recorded so far, in order *)
  cached_renderpasses : gmap (Z * Z * bool) RenderPass;
  framebuffers : gmap FramebufferInfo VkFramebuffer;
  state : State;
}.

Definition set_device (rc : RenderpassCache) (d : Device) : RenderpassCache :=
  {| instance := instance rc; device := d; scheduler := scheduler rc;
     cached_renderpasses := cached_renderpasses rc;
     framebuffers := framebuffers rc; state := state rc |}.

Definition set_scheduler (rc : RenderpassCache) (s : list Command) : RenderpassCache :=
  {| instance := instance rc; device := device rc; scheduler := s;
     cached_renderpasses := cached_renderpasses rc;
     framebuffers := framebuffers rc; state := state rc |}.

Definition set_cached_renderpasses (rc : RenderpassCache)
    (t : gmap (Z * Z * bool) RenderPass) : RenderpassCache :=
  {| instance := instance rc; device := device rc; scheduler := scheduler rc;
     cached_renderpasses := t;
     framebuffers := framebuffers rc; state := state rc |}.

Definition set_framebuffers (rc : RenderpassCache)
    (m : gmap FramebufferInfo VkFramebuffer) : RenderpassCache :=
  {| instance := instance rc; device := device rc; scheduler := scheduler rc;
     cached_renderpasses := cached_renderpasses rc;
     framebuffers := m; state := state rc |}.

Definition set_state (rc : RenderpassCache) (s : State) : RenderpassCache :=
  {| instance := instance rc; device := device rc; scheduler := scheduler rc;
     cached_renderpasses := cached_renderpasses rc;
     framebuffers := framebuffers rc; state := s |}.

(** [scheduler.Record(...)]. *)
Definition Record_cmd (rc : RenderpassCache) (c : Command) : RenderpassCache :=
  set_scheduler rc (scheduler rc ++ [c]).

(** [RenderpassCache::RenderpassCache(instance, scheduler)]. *)
Definition RenderpassCache_new (inst : Instance) (dev : Device) (sched : list Command)
  : RenderpassCache :=
  {| instance := inst; device := dev; scheduler := sched;
     cached_renderpasses := ∅; framebuffers := ∅; state := State_init |}.

(** [ClearFramebuffers]. *)
Definition ClearFramebuffers (rc : RenderpassCache) : RenderpassCache :=
  set_framebuffers rc ∅.

(** [EndRendering]. *)
Definition EndRendering (rc : RenderpassCache) : RenderpassCache :=
  if negb (st_rendering (state rc)) then rc
  else
    let s := state rc in
    let rc1 := set_state rc
      {| st_views := st_views s; st_render_area := st_render_area s;
         st_clear := st_clear s; st_do_clear := st_do_clear s;
         st_rendering := false |} in
    Record_cmd rc1 CmdEndRenderPass.

(** The key derivation of [GetRenderpass] ([u32] arithmetic). *)
Definition color_index (color : PixelFormat) : Z :=
  if color =? PixelFormat_Invalid then MAX_COLOR_FORMATS else color.

Definition depth_index (depth : PixelFormat) : Z :=
  if depth =? PixelFormat_Invalid then MAX_DEPTH_FORMATS
  else (depth - 14) mod 2 ^ 32.

(** [ASSERT_MSG(color_index <= MAX_COLOR_FORMATS && depth_index <= MAX_DEPTH_FORMATS, ...)]. *)
Definition index_assert (ci di : Z) : bool :=
  (ci <=? MAX_COLOR_FORMATS) && (di <=? MAX_DEPTH_FORMATS).

(** [CreateRenderPass]: builds the description and creates the object. *)
Definition CreateRenderPass (rc : RenderpassCache) (color depth : VkFormat)
    (load_op : AttachmentLoadOp) : RenderPass * RenderpassCache :=
  let '(h, d) := createRenderPassUnique (device rc)
                   (CreateRenderPass_info color depth load_op) in
  (h, set_device rc d).

(** [GetRenderpass]; [None] when the assertion terminates the process. *)
Definition GetRenderpass (rc : RenderpassCache) (color depth : PixelFormat)
    (is_clear : bool) : option (RenderPass * RenderpassCache) :=
  let ci := color_index color in
  let di := depth_index depth in
  if negb (index_assert ci di) then None
  else
    match cached_renderpasses rc !! (ci, di, is_clear) with
    | Some renderpass => Some (renderpass, rc)
    | None =>
        let color_format := GetTraits (instance rc) color in
        let depth_format := GetTraits (instance rc) depth in
        let load_op := if is_clear then eClear else eLoad in
        let '(renderpass, rc1) := CreateRenderPass rc color_format depth_format load_op in
        Some (renderpass,
              set_cached_renderpasses rc1
                (<[(ci, di, is_clear) := renderpass]> (cached_renderpasses rc1)))
    end.

(** [CreateFramebuffer]. *)
Definition CreateFramebuffer (rc : RenderpassCache) (info : FramebufferInfo)
    (renderpass : RenderPass) : VkFramebuffer * RenderpassCache :=
  let '(h, d) := createFramebufferUnique (device rc)
                   (CreateFramebuffer_info info renderpass) in
  (h, set_device rc d).

(** The early-return test of [BeginRendering]. *)
Definition begin_is_noop (s : State) (views : Views) (do_clear : bool)
    (clear : ClearValue) : bool :=
  views_eqb (st_views s) views && Bool.eqb (st_do_clear s) do_clear &&
  ClearDepthStencilValue_eqb (depthStencil (st_clear s)) (depthStencil clear) &&
  st_rendering s.

(** [BeginRendering]. *)
Definition BeginRendering (rc : RenderpassCache) (framebuffer : Framebuffer)
    (do_clear : bool) (clear : ClearValue) : option RenderpassCache :=
  let views := ImageViews framebuffer in
  if begin_is_noop (state rc) views do_clear clear then Some rc
  else
    let rc1 := EndRendering rc in
    let rc2 := set_state rc1
      {| st_views := views; st_render_area := st_render_area (state rc1);
         st_clear := clear; st_do_clear := do_clear; st_rendering := true |} in
    let framebuffer_info :=
      {| fi_color := fst views; fi_depth := snd views;
         fi_width := Width framebuffer; fi_height := Height framebuffer |} in
    let color := Format framebuffer Color in
    let depth := Format framebuffer Depth in
    match GetRenderpass rc2 color depth do_clear with
    | None => None
    | Some (renderpass, rc3) =>
        let '(fb_handle, rc4) :=
          match framebuffers rc3 !! framebuffer_info with
          | Some h => (h, rc3)
          | None =>
              let '(h, rc') := CreateFramebuffer rc3 framebuffer_info renderpass in
              (h, set_framebuffers rc' (<[framebuffer_info := h]> (framebuffers rc')))
          end in
        Some (Record_cmd rc4
          (CmdBeginRenderPass
             {| bi_renderPass := renderpass;
                bi_framebuffer := fb_handle;
                bi_renderArea := RenderArea framebuffer;
                bi_clearValueCount := if do_clear then 1 else 0;
                bi_clearValue := clear |}))
    end.

(** The attachment-set identity [BeginRendering] builds for a framebuffer. *)
Definition fb_info (framebuffer : Framebuffer) : FramebufferInfo :=
  {| fi_color := fst (ImageViews framebuffer); fi_depth := snd (ImageViews framebuffer);
     fi_width := Width framebuffer; fi_height := Height framebuffer |}.

(** Sequences of public operations. *)
Inductive Op :=
  | OpBeginRendering (fb : Framebuffer) (do_clear : bool) (clear : ClearValue)
  | OpEndRendering
  | OpClearFramebuffers
  | OpGetRenderpass (color depth : PixelFormat) (is_clear : bool).

Definition step (rc : RenderpassCache) (op : Op) : option RenderpassCache :=
  match op with
  | OpBeginRendering fb dc c => BeginRendering rc fb dc c
  | OpEndRendering => Some (EndRendering rc)
  | OpClearFramebuffers => Some (ClearFramebuffers rc)
  | OpGetRenderpass c d b => option_map snd (GetRenderpass rc c d b)
  end.

Fixpoint run (rc : RenderpassCache) (ops : list Op) : option RenderpassCache :=
  match ops with
  | [] => Some rc
  | op :: ops' =>
      match step rc op with
      | None => None
      | Some rc' => run rc' ops'
      end
  end.

(** ** Concrete configurations *)

(** A format-traits table: [Invalid] has no native format. *)
Definition instance0 : Instance :=
  {| GetTraits := fun p => if p =? PixelFormat_Invalid then eUndefined else 100 + p |}.

Definition device0 : Device :=
  {| next_handle := 1; created_renderpasses := []; created_framebuffers := [] |}.

Definition cache0 : RenderpassCache := RenderpassCache_new instance0 device0 [].

Definition area0 : Rect2D :=
  {| offset_x := 0; offset_y := 0; extent_width := 400; extent_height := 240 |}.

(** Color RGBA8 (ordinal 0) + depth D24S8 (ordinal 17). *)
Definition fbA : Framebuffer :=
  {| ImageViews := (11, 12); Width := 400; Height := 240;
     FormatColor := 0; FormatDepth := 17; RenderArea := area0 |}.

Definition fbB : Framebuffer :=
  {| ImageViews := (21, 22); Width := 400; Height := 240;
     FormatColor := 0; FormatDepth := 17; RenderArea := area0 |}.

(** [color.float32 = {1,0,0,1}] (red) and [{0,1,0,1}] (green) as lanes. *)
Definition clear_red : ClearValue :=
  {| cv_w0 := 1065353216; cv_w1 := 0; cv_w2 := 0; cv_w3 := 1065353216 |}.
Definition clear_green : ClearValue :=
  {| cv_w0 := 0; cv_w1 := 1065353216; cv_w2 := 0; cv_w3 := 1065353216 |}.
Definition clear_blue : ClearValue :=
  {| cv_w0 := 0; cv_w1 := 0; cv_w2 := 1065353216; cv_w3 := 1065353216 |}.

(** [color.float32 = {1,0,0,0.5}]: red with another alpha; its
    [depthStencil] member is the one of [clear_red]. *)
Definition clear_red_alpha : ClearValue :=
  {| cv_w0 := 1065353216; cv_w1 := 0; cv_w2 := 0; cv_w3 := 1056964608 |}.

(** The cache after [BeginRendering(fbA, true, red)]. *)
Definition cache_red : RenderpassCache :=
  match BeginRendering cache0 fbA true clear_red with
  | Some rc => rc
  | None => cache0
  end.

(** Further reachable caches. *)
Definition cache_red_B : RenderpassCache :=
  match BeginRendering cache_red fbB false clear_red with
  | Some rc => rc
  | None => cache0
  end.

Definition cache_rp : RenderpassCache :=
  match GetRenderpass cache0 0 14 true with
  | Some (_, rc) => rc
  | None => cache0
  end.

Definition ops_rp : list Op :=
  [OpBeginRendering fbA true clear_red; OpClearFramebuffers; OpGetRenderpass 0 17 false].

Definition cache_rp_ops : RenderpassCache :=
  match run cache_rp ops_rp with
  | Some rc => rc
  | None => cache0
  end.

Definition ops_A_ended : list Op :=
  [OpBeginRendering fbA false ClearValue_zero; OpEndRendering].

Definition cache_A_ended : RenderpassCache :=
  match run cache0 ops_A_ended with
  | Some rc => rc
  | None => cache0
  end.

Definition cache_A_rebuilt : RenderpassCache :=
  match BeginRendering (ClearFramebuffers cache_A_ended) fbA false ClearValue_zero with
  | Some rc => rc
  | None => cache0
  end.

(** Replays the recorded commands as render-pass scopes: [Some open] when
    every begin happens outside a pass and every end inside one ([open]
    tells whether a pass is left open), [None] otherwise. *)
Fixpoint pass_nesting (open_ : bool) (cmds : list Command) : option bool :=
  match cmds with
  | [] => Some open_
  | CmdBeginRenderPass _ :: t => if open_ then None else pass_nesting true t
  | CmdEndRenderPass :: t => if open_ then pass_nesting false t else None
  end.

(** A clear value whose depth lane is a quiet NaN ([0x7FC00000]). *)
Definition clear_nan : ClearValue :=
  {| cv_w0 := 2143289344; cv_w1 := 0; cv_w2 := 0; cv_w3 := 0 |}.

(** A clear value whose depth lane is [-0.0] ([0x80000000]). *)
Definition clear_negzero : ClearValue :=
  {| cv_w0 := 2147483648; cv_w1 := 0; cv_w2 := 0; cv_w3 := 0 |}.

(** The cache after [BeginRendering(fbA, false, 0)]. *)
Definition cache_zero : RenderpassCache :=
  match BeginRendering cache0 fbA false ClearValue_zero with
  | Some rc => rc
  | None => cache0
  end.

(** [BeginRendering(fbA, false, 0)] again after that pass was ended. *)
Definition cache_A_again : RenderpassCache :=
  match BeginRendering cache_A_ended fbA false ClearValue_zero with
  | Some rc => rc
  | None => cache0
  end.

(** [BeginRendering(fbA, true, NaN depth)] while the red pass is active. *)
Definition cache_red_nan : RenderpassCache :=
  match BeginRendering cache_red fbA true clear_nan with
  | Some rc => rc
  | None => cache0
  end.

(** ** Frame lemmas *)

Ltac unfold_setters :=
  unfold set_device, set_scheduler, set_cached_renderpasses, set_framebuffers,
    set_state, Record_cmd in *; simpl in *.

Definition table_incl (rc rc' : RenderpassCache) : Prop :=
  forall k h, cached_renderpasses rc !! k = Some h -> cached_renderpasses rc' !! k = Some h.

(** Every framebuffer handle in the map was handed out by the device. *)
Definition fb_handles_old (rc : RenderpassCache) : Prop :=
  map_Forall (fun _ h => h < next_handle (device rc)) (framebuffers rc).

Lemma table_incl_refl rc : table_incl rc rc.
Proof. intros k h H; exact H. Qed.

Lemma table_incl_trans r1 r2 r3 :
  table_incl r1 r2 -> table_incl r2 r3 -> table_incl r1 r3.
Proof. intros H1 H2 k h H. auto. Qed.

Lemma GetRenderpass_frame rc c d b h rc' :
  GetRenderpass rc c d b = Some (h, rc') ->
  index_assert (color_index c) (depth_index d) = true /\
  scheduler rc' = scheduler rc /\ state rc' = state rc /\
  framebuffers rc' = framebuffers rc /\ instance rc' = instance rc /\
  next_handle (device rc) <= next_handle (device rc') /\
  cached_renderpasses rc' !! (color_index c, depth_index d, b) = Some h /\
  table_incl rc rc'.
Proof.
  unfold GetRenderpass.
  destruct (index_assert (color_index c) (depth_index d)) eqn:Ha; [|discriminate]. simpl.
  destruct (cached_renderpasses rc !! (color_index c, depth_index d, b)) as [h0|] eqn:Hl.
  - intros [= <- <-]. repeat split; auto using table_incl_refl; lia.
  - unfold CreateRenderPass, createRenderPassUnique. simpl. intros [= <- <-].
    unfold_setters. repeat split; try lia.
    + by rewrite lookup_insert_eq.
    + intros k h1 Hk. simpl. rewrite lookup_insert_ne; [exact Hk|].
      intros <-. congruence.
Qed.

Lemma GetRenderpass_None rc c d b :
  GetRenderpass rc c d b = None <->
  index_assert (color_index c) (depth_index d) = false.
Proof.
  unfold GetRenderpass.
  destruct (index_assert (color_index c) (depth_index d)); simpl; [|tauto].
  destruct (cached_renderpasses rc !! _); [split; discriminate|].
  unfold CreateRenderPass, createRenderPassUnique. split; discriminate.
Qed.

Lemma GetRenderpass_hit rc c d b h :
  index_assert (color_index c) (depth_index d) = true ->
  cached_renderpasses rc !! (color_index c, depth_index d, b) = Some h ->
  GetRenderpass rc c d b = Some (h, rc).
Proof. intros Ha Hl. unfold GetRenderpass. rewrite Ha. simpl. by rewrite Hl. Qed.

Lemma EndRendering_frame rc :
  cached_renderpasses (EndRendering rc) = cached_renderpasses rc /\
  framebuffers (EndRendering rc) = framebuffers rc /\
  device (EndRendering rc) = device rc /\ instance (EndRendering rc) = instance rc /\
  st_rendering (state (EndRendering rc)) = false /\
  st_render_area (state (EndRendering rc)) = st_render_area (state rc) /\
  scheduler (EndRendering rc) =
    scheduler rc ++ (if st_rendering (state rc) then [CmdEndRenderPass] else []).
Proof.
  unfold EndRendering. destruct (st_rendering (state rc)) eqn:E; simpl.
  - repeat split.
  - rewrite app_nil_r. repeat split; auto.
Qed.

Lemma BeginRendering_effect rc fb dc c rc' :
  begin_is_noop (state rc) (ImageViews fb) dc c = false ->
  BeginRendering rc fb dc c = Some rc' ->
  exists rp fbh,
    scheduler rc' = scheduler (EndRendering rc) ++
      [CmdBeginRenderPass
         {| bi_renderPass := rp; bi_framebuffer := fbh; bi_renderArea := RenderArea fb;
            bi_clearValueCount := if dc then 1 else 0; bi_clearValue := c |}] /\
    state rc' = {| st_views := ImageViews fb; st_render_area := st_render_area (state rc);
                   st_clear := c; st_do_clear := dc; st_rendering := true |} /\
    cached_renderpasses rc' !! (color_index (FormatColor fb), depth_index (FormatDepth fb), dc)
      = Some rp /\
    framebuffers rc' !! fb_info fb = Some fbh /\
    (framebuffers rc !! fb_info fb = None -> next_handle (device rc) <= fbh) /\
    next_handle (device rc) <= next_handle (device rc') /\
    table_incl rc rc' /\
    (fb_handles_old rc -> fb_handles_old rc').
Proof.
  intros Hn. unfold BeginRendering. rewrite Hn.
  destruct (EndRendering_frame rc) as (E1 & E2 & E3 & E4 & E5 & E6 & E7).
  set (rc2 := set_state (EndRendering rc) _).
  destruct (GetRenderpass rc2 (Format fb Color) (Format fb Depth) dc) as [[rp rc3]|] eqn:G;
    [|discriminate].
  destruct (GetRenderpass_frame _ _ _ _ _ _ G) as (_ & G1 & G2 & G3 & G4 & G5 & G6 & G7).
  assert (T2 : table_incl rc rc3).
  { intros k x Hk. apply G7. subst rc2. unfold_setters. rewrite E1. exact Hk. }
  subst rc2. unfold_setters.
  rewrite E3 in G5. rewrite E2 in G3. rewrite E6 in G2.
  fold (fb_info fb).
  destruct (framebuffers rc3 !! fb_info fb) as [h|] eqn:Hf; simpl; intros [= <-].
  - exists rp, h. unfold_setters. rewrite G1, G2. repeat split; auto.
    + intros Hnone. rewrite G3 in Hf. congruence.
    + intros Hold. unfold fb_handles_old in *. simpl. rewrite G3.
      eapply map_Forall_impl; [exact Hold|]. simpl. intros; lia.
  - exists rp, (next_handle (device rc3)). unfold_setters. rewrite G1, G2.
    repeat split; auto.
    + by rewrite lookup_insert_eq.
    + intros; lia.
    + intros Hold. unfold fb_handles_old in *. simpl.
      apply map_Forall_insert_2; [simpl; lia|]. rewrite G3.
      eapply map_Forall_impl; [exact Hold|]. simpl. intros; lia.
Qed.

Lemma begin_is_noop_inactive s views dc c :
  st_rendering s = false -> begin_is_noop s views dc c = false.
Proof. intros H. unfold begin_is_noop. rewrite H. apply andb_false_r. Qed.

Lemma BeginRendering_noop_true rc fb dc c :
  begin_is_noop (state rc) (ImageViews fb) dc c = true ->
  BeginRendering rc fb dc c = Some rc.
Proof. intros H. unfold BeginRendering. rewrite H. reflexivity. Qed.

Lemma step_frame rc op rc' :
  step rc op = Some rc' ->
  table_incl rc rc' /\ (fb_handles_old rc -> fb_handles_old rc').
Proof.
  destruct op as [fb dc c | | | c d b]; simpl.
  - destruct (begin_is_noop (state rc) (ImageViews fb) dc c) eqn:Hn.
    + unfold BeginRendering. rewrite Hn. intros [= <-]. split; auto using table_incl_refl.
    + intros H. destruct (BeginRendering_effect _ _ _ _ _ Hn H)
        as (rp & fbh & _ & _ & _ & _ & _ & _ & T & F). auto.
  - intros [= <-]. destruct (EndRendering_frame rc) as (E1 & E2 & E3 & _).
    split.
    + intros k h Hk. rewrite E1. exact Hk.
    + unfold fb_handles_old. rewrite E2, E3. auto.
  - intros [= <-]. split.
    + intros k h Hk. exact Hk.
    + intros _. apply map_Forall_empty.
  - destruct (GetRenderpass rc c d b) as [[h rc1]|] eqn:G; simpl; [|discriminate].
    intros [= <-].
    destruct (GetRenderpass_frame _ _ _ _ _ _ G) as (_ & _ & _ & G3 & _ & G5 & _ & G7).
    split; [exact G7|].
    unfold fb_handles_old. rewrite G3. intros Hold.
    eapply map_Forall_impl; [exact Hold|]. simpl. intros; lia.
Qed.

Lemma run_frame ops : forall rc rc',
  run rc ops = Some rc' ->
  table_incl rc rc' /\ (fb_handles_old rc -> fb_handles_old rc').
Proof.
  induction ops as [|op ops IH]; simpl; intros rc rc' H.
  - injection H as <-. split; auto using table_incl_refl.
  - destruct (step rc op) as [rc1|] eqn:S; [|discriminate].
    destruct (step_frame _ _ _ S) as [T1 F1].
    destruct (IH _ _ H) as [T2 F2].
    split; [eapply table_incl_trans; eauto | auto].
Qed.

Lemma fb_handles_old_new inst dev sched :
  fb_handles_old (RenderpassCache_new inst dev sched).
Proof. apply map_Forall_empty. Qed.

(** ** Claims *)

(** C1 (amended). While a pass is active, [BeginRendering] with the same
    views, the same [do_clear] and a [depthStencil] member comparing equal
    is a no-op that records nothing and keeps the whole state, including
    the stored clear value, whatever the other lanes of the new clear
    value are; and after a first [BeginRendering(fb, true, c1)] from an
    inactive cache, a second one with [c2] whose [depthStencil] compares
    equal to [c1]'s leaves exactly one recorded begin command, carrying
    [c1]. *)
Theorem BeginRendering_noop_depthStencil (rc : RenderpassCache) (fb : Framebuffer)
    (dc : bool) (c : ClearValue) (rc0 : RenderpassCache) (fb0 : Framebuffer)
    (c1 c2 : ClearValue) (rc1 : RenderpassCache) :
  st_rendering (state rc) = true ->
  views_eqb (st_views (state rc)) (ImageViews fb) = true ->
  st_do_clear (state rc) = dc ->
  ClearDepthStencilValue_eqb (depthStencil (st_clear (state rc))) (depthStencil c) = true ->
  st_rendering (state rc0) = false ->
  BeginRendering rc0 fb0 true c1 = Some rc1 ->
  ClearDepthStencilValue_eqb (depthStencil c1) (depthStencil c2) = true ->
  BeginRendering rc fb dc c = Some rc /\
  BeginRendering rc1 fb0 true c2 = Some rc1 /\
  exists rp fbh,
    scheduler rc1 = scheduler rc0 ++
      [CmdBeginRenderPass
         {| bi_renderPass := rp; bi_framebuffer := fbh; bi_renderArea := RenderArea fb0;
            bi_clearValueCount := 1; bi_clearValue := c1 |}].
Proof.
  intros Hr Hv Hd Hds Hr0 Hb1 H12. split; [|split].
  - apply BeginRendering_noop_true. unfold begin_is_noop.
    rewrite Hv, Hds, Hr, Hd, eqb_reflx. reflexivity.
  - pose proof (begin_is_noop_inactive _ (ImageViews fb0) true c1 Hr0) as Hn.
    destruct (BeginRendering_effect _ _ _ _ _ Hn Hb1) as (rp & fbh & S & St & _).
    apply BeginRendering_noop_true. unfold begin_is_noop. rewrite St.
    cbn [st_views st_do_clear st_clear st_rendering].
    unfold views_eqb. rewrite !Z.eqb_refl, H12. reflexivity.
  - pose proof (begin_is_noop_inactive _ (ImageViews fb0) true c1 Hr0) as Hn.
    destruct (BeginRendering_effect _ _ _ _ _ Hn Hb1) as (rp & fbh & S & _).
    exists rp, fbh. rewrite S.
    destruct (EndRendering_frame rc0) as (_ & _ & _ & _ & _ & _ & E7).
    rewrite E7, Hr0, app_nil_r. reflexivity.
Qed.

(** C2. [GetRenderpass] is memoised: a successful call leaves its handle in
    the slot [(color_index, depth_index, is_clear)], creating it with a
    fresh device handle on a miss, and every later call with the same
    arguments, after any sequence of operations, returns the same handle
    and changes nothing. *)
Theorem GetRenderpass_memoized (rc : RenderpassCache) (c d : PixelFormat) (b : bool)
    (h : RenderPass) (rc1 : RenderpassCache) (ops : list Op) (rc2 : RenderpassCache) :
  GetRenderpass rc c d b = Some (h, rc1) ->
  run rc1 ops = Some rc2 ->
  cached_renderpasses rc1 !! (color_index c, depth_index d, b) = Some h /\
  (cached_renderpasses rc !! (color_index c, depth_index d, b) = None ->
     h = next_handle (device rc) /\
     created_renderpasses (device rc1) =
       created_renderpasses (device rc) ++
       [(h, CreateRenderPass_info (GetTraits (instance rc) c) (GetTraits (instance rc) d)
              (if b then eClear else eLoad))]) /\
  GetRenderpass rc2 c d b = Some (h, rc2).
Proof.
  intros G R.
  destruct (GetRenderpass_frame _ _ _ _ _ _ G) as (Ha & _ & _ & _ & _ & _ & G6 & _).
  split; [exact G6|split].
  - intros Hmiss. revert G. unfold GetRenderpass. rewrite Ha, Hmiss. simpl.
    intros [= <- <-]. split; reflexivity.
  - apply GetRenderpass_hit; [exact Ha|].
    destruct (run_frame _ _ _ R) as [T _]. apply T, G6.
Qed.

(** C3. A [BeginRendering] that is not skipped (always the case when no
    pass is active, see [begin_is_noop_inactive]) records one end command
    if a pass was active, then exactly one begin command, and nothing else. *)
Theorem BeginRendering_commands (rc : RenderpassCache) (fb : Framebuffer) (dc : bool)
    (c : ClearValue) (rc' : RenderpassCache) :
  begin_is_noop (state rc) (ImageViews fb) dc c = false ->
  BeginRendering rc fb dc c = Some rc' ->
  exists bi,
    scheduler rc' = scheduler rc ++
      (if st_rendering (state rc) then [CmdEndRenderPass] else []) ++
      [CmdBeginRenderPass bi].
Proof.
  intros Hn Hb.
  destruct (BeginRendering_effect _ _ _ _ _ Hn Hb) as (rp & fbh & S & _).
  eexists. rewrite S.
  destruct (EndRendering_frame rc) as (_ & _ & _ & _ & _ & _ & E7).
  rewrite E7, app_assoc. reflexivity.
Qed.

(** C4. Every render pass [GetRenderpass] builds loads with [eClear] if
    [is_clear] else [eLoad] (never [eDontCare]) and stores with [eStore];
    the depth attachment uses the same policy for its stencil aspect;
    attachments are the color one (if any) then the depth one (if any);
    there is one subpass and no dependency. *)
Theorem CreateRenderPass_load_store (color depth : VkFormat) (is_clear : bool) :
  let load_op := if is_clear then eClear else eLoad in
  let ci := CreateRenderPass_info color depth load_op in
  load_op <> eDontCare /\
  Forall (fun a => ad_loadOp a = load_op /\ ad_storeOp a = eStore) (rp_pAttachments ci) /\
  map ad_format (rp_pAttachments ci) =
    (if color =? eUndefined then [] else [color]) ++
    (if depth =? eUndefined then [] else [depth]) /\
  (if depth =? eUndefined then True
   else exists a, hd_error (rev (rp_pAttachments ci)) = Some a /\
                  ad_stencilLoadOp a = load_op /\ ad_stencilStoreOp a = eStore) /\
  rp_attachmentCount ci = Z.of_nat (length (rp_pAttachments ci)) /\
  rp_subpassCount ci = 1 /\ length (rp_pSubpasses ci) = 1%nat /\
  rp_dependencyCount ci = 0.
Proof.
  cbv zeta. unfold CreateRenderPass_info.
  destruct is_clear, (color =? eUndefined), (depth =? eUndefined); cbn;
    repeat split; try discriminate; repeat constructor; eexists; repeat split.
Qed.

(** C5. Key derivation: the depth format of ordinal 14 gets index 0, the
    one of ordinal 17 index 3, [Invalid] gets [MAX_COLOR_FORMATS] /
    [MAX_DEPTH_FORMATS]; [GetRenderpass] stops at the assertion exactly
    when an index exceeds its bound, and otherwise returns a handle. *)
Theorem GetRenderpass_key_derivation :
  depth_index 14 = 0 /\ depth_index 17 = 3 /\
  color_index PixelFormat_Invalid = MAX_COLOR_FORMATS /\
  depth_index PixelFormat_Invalid = MAX_DEPTH_FORMATS /\
  (forall rc c d b,
     GetRenderpass rc c d b = None <->
     MAX_COLOR_FORMATS < color_index c \/ MAX_DEPTH_FORMATS < depth_index d) /\
  (forall rc c d b,
     color_index c <= MAX_COLOR_FORMATS -> depth_index d <= MAX_DEPTH_FORMATS ->
     exists h rc', GetRenderpass rc c d b = Some (h, rc')).
Proof.
  split; [reflexivity|]. split; [reflexivity|].
  split; [reflexivity|]. split; [reflexivity|]. split.
  - intros rc c d b. rewrite GetRenderpass_None. unfold index_assert.
    rewrite andb_false_iff, !Z.leb_gt. tauto.
  - intros rc c d b Hc Hd.
    destruct (GetRenderpass rc c d b) as [[h rc']|] eqn:G; [eauto|].
    apply GetRenderpass_None in G. unfold index_assert in G.
    apply Z.leb_le in Hc, Hd. rewrite Hc, Hd in G. discriminate.
Qed.

(** C6. [BeginRendering] never writes [State::render_area]: from a fresh
    cache, after beginning a pass on [fbA] the state is active but its
    render area is still the zero rectangle, not [fbA]'s. *)
Theorem BeginRendering_render_area_not_stored :
  exists rc',
    BeginRendering cache0 fbA false ClearValue_zero = Some rc' /\
    st_rendering (state rc') = true /\
    st_render_area (state rc') = Rect2D_zero /\
    RenderArea fbA <> Rect2D_zero.
Proof.
  eexists. split; [reflexivity|]. split; [reflexivity|]. split; [reflexivity|].
  discriminate.
Qed.

(** C8. [EndRendering] on an inactive cache changes nothing and records
    nothing; on an active one it clears the active flag and records exactly
    one end command. *)
Theorem EndRendering_spec (rc : RenderpassCache) :
  if st_rendering (state rc) then
    st_rendering (state (EndRendering rc)) = false /\
    scheduler (EndRendering rc) = scheduler rc ++ [CmdEndRenderPass]
  else EndRendering rc = rc.
Proof.
  unfold EndRendering. destruct (st_rendering (state rc)); simpl; auto.
Qed.

(** C9 (amended). A new cache starts from the value-initialised, inactive
    [State]; [EndRendering] only clears the active flag and keeps views,
    render area, clear value and [do_clear]. *)
Theorem RenderState_after_construction_and_end (inst : Instance) (dev : Device)
    (sched : list Command) (rc : RenderpassCache) :
  state (RenderpassCache_new inst dev sched) = State_init /\
  st_rendering State_init = false /\
  state (EndRendering rc) =
    {| st_views := st_views (state rc); st_render_area := st_render_area (state rc);
       st_clear := st_clear (state rc); st_do_clear := st_do_clear (state rc);
       st_rendering := false |}.
Proof.
  split; [reflexivity|]. split; [reflexivity|].
  unfold EndRendering. destruct rc as [i dv sc cr fbs [v a c d r]]; simpl.
  destruct r; reflexivity.
Qed.

(** C10. A non-Invalid depth ordinal below 14 wraps in [u32] arithmetic
    to [ordinal + 2^32 - 14 > MAX_DEPTH_FORMATS], so [GetRenderpass]
    always stops at the assertion for it. *)
Theorem depth_index_wraps_below_offset (d : PixelFormat) :
  0 <= d < 14 ->
  d <> PixelFormat_Invalid /\
  depth_index d = d + 2 ^ 32 - 14 /\
  MAX_DEPTH_FORMATS < depth_index d /\
  (forall rc c b, GetRenderpass rc c d b = None).
Proof.
  intros Hd.
  assert (Hi : d <> PixelFormat_Invalid) by (unfold PixelFormat_Invalid; lia).
  assert (Hm : depth_index d = d + 2 ^ 32 - 14).
  { unfold depth_index. apply Z.eqb_neq in Hi. rewrite Hi.
    symmetry. apply Z.mod_unique with (-1); lia. }
  split; [exact Hi|]. split; [exact Hm|].
  assert (Hgt : MAX_DEPTH_FORMATS < depth_index d)
    by (rewrite Hm; unfold MAX_DEPTH_FORMATS; lia).
  split; [exact Hgt|].
  intros rc c b. apply GetRenderpass_None. unfold index_assert.
  apply Z.leb_gt in Hgt. rewrite Hgt. apply andb_false_r.
Qed.

(** C7 (amended). [ClearFramebuffers] empties the framebuffer map and
    keeps the render-pass table, the state and the recorded commands; in a
    cache built by a run of operations, a later [BeginRendering] for a
    previously cached attachment identity that is not skipped as a no-op
    creates a framebuffer object with a new handle and begins the pass
    with it. *)
Theorem ClearFramebuffers_rebuild (inst : Instance) (dev : Device) (sched : list Command)
    (ops : list Op) (rc : RenderpassCache) (h_old : VkFramebuffer) (fb : Framebuffer)
    (dc : bool) (c : ClearValue) (rc2 : RenderpassCache) :
  run (RenderpassCache_new inst dev sched) ops = Some rc ->
  framebuffers rc !! fb_info fb = Some h_old ->
  begin_is_noop (state rc) (ImageViews fb) dc c = false ->
  BeginRendering (ClearFramebuffers rc) fb dc c = Some rc2 ->
  framebuffers (ClearFramebuffers rc) = ∅ /\
  cached_renderpasses (ClearFramebuffers rc) = cached_renderpasses rc /\
  state (ClearFramebuffers rc) = state rc /\
  scheduler (ClearFramebuffers rc) = scheduler rc /\
  exists h_new pre bi,
    framebuffers rc2 !! fb_info fb = Some h_new /\ h_new <> h_old /\
    scheduler rc2 = pre ++ [CmdBeginRenderPass bi] /\ bi_framebuffer bi = h_new.
Proof.
  intros R Hold Hn Hb.
  destruct (run_frame _ _ _ R) as [_ F].
  specialize (F (fb_handles_old_new inst dev sched)).
  pose proof (map_Forall_lookup_1 _ _ _ _ F Hold) as Hlt. simpl in Hlt.
  split; [reflexivity|]. split; [reflexivity|].
  split; [reflexivity|]. split; [reflexivity|].
  change (begin_is_noop (state (ClearFramebuffers rc)) (ImageViews fb) dc c = false) in Hn.
  destruct (BeginRendering_effect _ _ _ _ _ Hn Hb)
    as (rp & fbh & S & _ & _ & Hf & Hfresh & _).
  eexists fbh, (scheduler (EndRendering (ClearFramebuffers rc))), _.
  split; [exact Hf|]. split; [|split; [exact S|reflexivity]].
  specialize (Hfresh eq_refl). simpl in Hfresh. lia.
Qed.

(** ** Counterexamples *)

(** C1: [vk::ClearValue] is a union whose [depthStencil] member overlays
    the red and green lanes of [color]; beginning on [fbA] with red and then
    with green (same views, [do_clear = true]) ends the first pass and
    begins a second one carrying green. *)
Lemma BeginRendering_red_green_restarts :
  option_map scheduler
    (run cache0 [OpBeginRendering fbA true clear_red; OpBeginRendering fbA true clear_green]) =
  Some [CmdBeginRenderPass
          {| bi_renderPass := 1; bi_framebuffer := 2; bi_renderArea := area0;
             bi_clearValueCount := 1; bi_clearValue := clear_red |};
        CmdEndRenderPass;
        CmdBeginRenderPass
          {| bi_renderPass := 1; bi_framebuffer := 2; bi_renderArea := area0;
             bi_clearValueCount := 1; bi_clearValue := clear_green |}].
Proof. reflexivity. Qed.

(** C7: while the pass on [fbA] is still active, [BeginRendering] on [fbA]
    after [ClearFramebuffers] is skipped: no framebuffer is rebuilt, the
    identity stays absent from the map and the device created only one. *)
Lemma ClearFramebuffers_active_pass_no_rebuild :
  option_map (fun rc => framebuffers rc !! fb_info fbA)
    (run cache0 [OpBeginRendering fbA false ClearValue_zero]) = Some (Some 2) /\
  option_map (fun rc => (framebuffers rc !! fb_info fbA,
                         length (created_framebuffers (device rc))))
    (run cache0 [OpBeginRendering fbA false ClearValue_zero; OpClearFramebuffers;
                 OpBeginRendering fbA false ClearValue_zero]) = Some (None, 1%nat).
Proof. split; reflexivity. Qed.

(** C9: after a pass on [fbA] is ended, the state keeps [fbA]'s views and
    so differs from the initial state. *)
Lemma EndRendering_keeps_views :
  st_views (state (EndRendering cache_red)) = (11, 12) /\
  state (EndRendering cache_red) <> State_init.
Proof.
  split; [reflexivity|].
  intros H. apply (f_equal st_views) in H. vm_compute in H. discriminate.
Qed.

(** ** Witnesses *)

Lemma BeginRendering_noop_depthStencil_witness :
  BeginRendering cache_red fbA true clear_red_alpha = Some cache_red /\
  BeginRendering cache_red fbA true clear_red_alpha = Some cache_red /\
  exists rp fbh,
    scheduler cache_red = scheduler cache0 ++
      [CmdBeginRenderPass
         {| bi_renderPass := rp; bi_framebuffer := fbh; bi_renderArea := RenderArea fbA;
            bi_clearValueCount := 1; bi_clearValue := clear_red |}].
Proof.
  apply (BeginRendering_noop_depthStencil cache_red fbA true clear_red_alpha
           cache0 fbA clear_red clear_red_alpha cache_red); vm_compute; reflexivity.
Defined.

Lemma GetRenderpass_memoized_witness :
  cached_renderpasses cache_rp !! (color_index 0, depth_index 14, true) = Some 1 /\
  (cached_renderpasses cache0 !! (color_index 0, depth_index 14, true) = None ->
     1 = next_handle (device cache0) /\
     created_renderpasses (device cache_rp) =
       created_renderpasses (device cache0) ++
       [(1, CreateRenderPass_info (GetTraits (instance cache0) 0)
              (GetTraits (instance cache0) 14) eClear)]) /\
  GetRenderpass cache_rp_ops 0 14 true = Some (1, cache_rp_ops).
Proof.
  apply (GetRenderpass_memoized cache0 0 14 true 1 cache_rp ops_rp cache_rp_ops);
    vm_compute; reflexivity.
Defined.

Lemma BeginRendering_commands_witness :
  exists bi,
    scheduler cache_red_B = scheduler cache_red ++
      (if st_rendering (state cache_red) then [CmdEndRenderPass] else []) ++
      [CmdBeginRenderPass bi].
Proof.
  apply (BeginRendering_commands cache_red fbB false clear_red cache_red_B); vm_compute; reflexivity.
Defined.

Lemma ClearFramebuffers_rebuild_witness :
  framebuffers (ClearFramebuffers cache_A_ended) = ∅ /\
  cached_renderpasses (ClearFramebuffers cache_A_ended) = cached_renderpasses cache_A_ended /\
  state (ClearFramebuffers cache_A_ended) = state cache_A_ended /\
  scheduler (ClearFramebuffers cache_A_ended) = scheduler cache_A_ended /\
  exists h_new pre bi,
    framebuffers cache_A_rebuilt !! fb_info fbA = Some h_new /\ h_new <> 2 /\
    scheduler cache_A_rebuilt = pre ++ [CmdBeginRenderPass bi] /\ bi_framebuffer bi = h_new.
Proof.
  apply (ClearFramebuffers_rebuild instance0 device0 [] ops_A_ended cache_A_ended 2 fbA
           false ClearValue_zero cache_A_rebuilt); vm_compute; reflexivity.
Defined.

Lemma depth_index_wraps_below_offset_witness :
  0 <= 0 < 14 /\
  (0 <> PixelFormat_Invalid /\
   depth_index 0 = 0 + 2 ^ 32 - 14 /\
   MAX_DEPTH_FORMATS < depth_index 0 /\
   (forall rc c b, GetRenderpass rc c 0 b = None)).
Proof.
  split; [lia|]. apply (depth_index_wraps_below_offset 0). lia.
Defined.

(** ** Further properties of the cache *)

Lemma pass_nesting_app o l1 l2 :
  pass_nesting o (l1 ++ l2) =
  match pass_nesting o l1 with Some o' => pass_nesting o' l2 | None => None end.
Proof.
  revert o. induction l1 as [|[bi|] t IH]; intros o; simpl; [reflexivity| |];
    destruct o; auto.
Qed.

(** The pieces of a [BeginRendering] that is not skipped. *)
Lemma BeginRendering_decomp rc fb dc c rc' :
  begin_is_noop (state rc) (ImageViews fb) dc c = false ->
  BeginRendering rc fb dc c = Some rc' ->
  exists rp rc3,
    GetRenderpass
      (set_state (EndRendering rc)
         {| st_views := ImageViews fb; st_render_area := st_render_area (state (EndRendering rc));
            st_clear := c; st_do_clear := dc; st_rendering := true |})
      (FormatColor fb) (FormatDepth fb) dc = Some (rp, rc3) /\
    ((exists h, framebuffers rc3 !! fb_info fb = Some h /\
        rc' = Record_cmd rc3
          (CmdBeginRenderPass
             {| bi_renderPass := rp; bi_framebuffer := h; bi_renderArea := RenderArea fb;
                bi_clearValueCount := if dc then 1 else 0; bi_clearValue := c |})) \/
     (framebuffers rc3 !! fb_info fb = None /\
        rc' = Record_cmd
          (set_framebuffers
             (set_device rc3 (snd (createFramebufferUnique (device rc3)
                                     (CreateFramebuffer_info (fb_info fb) rp))))
             (<[fb_info fb := next_handle (device rc3)]> (framebuffers rc3)))
          (CmdBeginRenderPass
             {| bi_renderPass := rp; bi_framebuffer := next_handle (device rc3);
                bi_renderArea := RenderArea fb;
                bi_clearValueCount := if dc then 1 else 0; bi_clearValue := c |}))).
Proof.
  intros Hn Hb. unfold BeginRendering in Hb. rewrite Hn in Hb.
  destruct (GetRenderpass _ (Format fb Color) (Format fb Depth) dc) as [[rp rc3]|] eqn:G;
    [|discriminate].
  exists rp, rc3. split; [exact G|]. fold (fb_info fb) in Hb.
  destruct (framebuffers rc3 !! fb_info fb) as [h|] eqn:Hf; simpl in Hb; injection Hb as <-.
  - left. eauto.
  - right. split; reflexivity.
Qed.

Lemma pass_nesting_step rc op rc' :
  step rc op = Some rc' ->
  pass_nesting false (scheduler rc) = Some (st_rendering (state rc)) ->
  pass_nesting false (scheduler rc') = Some (st_rendering (state rc')).
Proof.
  intros S Inv. destruct op as [fb dc c | | | col dep b]; simpl in S.
  - destruct (begin_is_noop (state rc) (ImageViews fb) dc c) eqn:Hn.
    + rewrite (BeginRendering_noop_true _ _ _ _ Hn) in S. injection S as <-. exact Inv.
    + destruct (BeginRendering_effect _ _ _ _ _ Hn S) as (rp & fbh & Sc & St & _).
      rewrite Sc, St. destruct (EndRendering_frame rc) as (_ & _ & _ & _ & _ & _ & E7).
      rewrite E7, !pass_nesting_app, Inv.
      destruct (st_rendering (state rc)); reflexivity.
  - injection S as <-. destruct (EndRendering_frame rc) as (_ & _ & _ & _ & E5 & _ & E7).
    rewrite E7, E5, pass_nesting_app, Inv.
    destruct (st_rendering (state rc)); reflexivity.
  - injection S as <-. exact Inv.
  - destruct (GetRenderpass rc col dep b) as [[h rc1]|] eqn:G; simpl in S; [|discriminate].
    injection S as <-.
    destruct (GetRenderpass_frame _ _ _ _ _ _ G) as (_ & G1 & G2 & _).
    rewrite G1, G2. exact Inv.
Qed.

(** X1. From a new cache with an empty command stream, the recorded
    commands always alternate begin / end, starting with a begin, and a
    pass is left open exactly when the state says a pass is active. *)
Theorem commands_well_bracketed (inst : Instance) (dev : Device) (ops : list Op)
    (rc : RenderpassCache) :
  run (RenderpassCache_new inst dev []) ops = Some rc ->
  pass_nesting false (scheduler rc) = Some (st_rendering (state rc)).
Proof.
  assert (G : forall l r r',
    run r l = Some r' ->
    pass_nesting false (scheduler r) = Some (st_rendering (state r)) ->
    pass_nesting false (scheduler r') = Some (st_rendering (state r'))).
  { intros l. induction l as [|op t IH]; simpl; intros r r' R Inv.
    - injection R as <-. exact Inv.
    - destruct (step r op) as [r1|] eqn:S; [|discriminate].
      eapply IH; [exact R|]. eapply pass_nesting_step; eauto. }
  intros R. eapply G; [exact R|]. reflexivity.
Qed.

Lemma run_preserves (P : RenderpassCache -> Prop) :
  (forall rc op rc', step rc op = Some rc' -> P rc -> P rc') ->
  forall ops rc rc', run rc ops = Some rc' -> P rc -> P rc'.
Proof.
  intros HP ops. induction ops as [|op t IH]; simpl; intros rc rc' R H.
  - injection R as <-. exact H.
  - destruct (step rc op) as [r1|] eqn:S; [|discriminate]. eauto.
Qed.

(** The render-pass table and the device's render-pass log change only
    through [GetRenderpass]. *)
Lemma step_renderpass_effect rc op rc' :
  step rc op = Some rc' ->
  (cached_renderpasses rc' = cached_renderpasses rc /\
   created_renderpasses (device rc') = created_renderpasses (device rc)) \/
  exists r2 r3 c d b rp,
    cached_renderpasses r2 = cached_renderpasses rc /\
    created_renderpasses (device r2) = created_renderpasses (device rc) /\
    GetRenderpass r2 c d b = Some (rp, r3) /\
    cached_renderpasses rc' = cached_renderpasses r3 /\
    created_renderpasses (device rc') = created_renderpasses (device r3).
Proof.
  destruct op as [fb dc c | | | col dep b]; simpl; intros S.
  - destruct (begin_is_noop (state rc) (ImageViews fb) dc c) eqn:Hn.
    + rewrite (BeginRendering_noop_true _ _ _ _ Hn) in S. injection S as <-. left; auto.
    + destruct (BeginRendering_decomp _ _ _ _ _ Hn S) as (rp & rc3 & G & Hc).
      destruct (EndRendering_frame rc) as (E1 & _ & E3 & _).
      right. do 6 eexists. split; [|split; [|split; [exact G|]]].
      * unfold_setters. exact E1.
      * unfold_setters. rewrite E3. reflexivity.
      * destruct Hc as [(h & _ & ->) | (_ & ->)]; unfold_setters; auto.
  - injection S as <-. destruct (EndRendering_frame rc) as (E1 & _ & E3 & _).
    left. rewrite E1, E3. auto.
  - injection S as <-. left. auto.
  - destruct (GetRenderpass rc col dep b) as [[h rc1]|] eqn:G; simpl in S; [|discriminate].
    injection S as <-. right. exists rc, rc1, col, dep, b, h. auto.
Qed.

Lemma GetRenderpass_count rc c d b rp rc' (N : nat) :
  GetRenderpass rc c d b = Some (rp, rc') ->
  length (created_renderpasses (device rc)) = (N + size (cached_renderpasses rc))%nat ->
  length (created_renderpasses (device rc')) = (N + size (cached_renderpasses rc'))%nat.
Proof.
  unfold GetRenderpass.
  destruct (index_assert (color_index c) (depth_index d)); simpl; [|discriminate].
  destruct (cached_renderpasses rc !! _) as [h|] eqn:Hl.
  - intros [= <- <-]. auto.
  - unfold CreateRenderPass, createRenderPassUnique. simpl. intros [= <- <-] H.
    unfold_setters. rewrite length_app, map_size_insert_None by exact Hl. simpl. lia.
Qed.

(** X2. Render passes are created only on a table miss and never twice for
    one key: in any run from a new cache, the device has created exactly as
    many render passes as the table has entries. *)
Theorem renderpasses_created_once (inst : Instance) (dev : Device) (sched : list Command)
    (ops : list Op) (rc : RenderpassCache) :
  run (RenderpassCache_new inst dev sched) ops = Some rc ->
  length (created_renderpasses (device rc)) =
    (length (created_renderpasses dev) + size (cached_renderpasses rc))%nat.
Proof.
  intros R.
  apply (run_preserves
    (fun r => length (created_renderpasses (device r)) =
              (length (created_renderpasses dev) + size (cached_renderpasses r))%nat))
    with (ops := ops) (rc := RenderpassCache_new inst dev sched); [|exact R|].
  - intros r op r' S H.
    destruct (step_renderpass_effect _ _ _ S)
      as [[-> ->] | (r2 & r3 & c & d & b & rp & E1 & E2 & G & -> & ->)]; [exact H|].
    eapply GetRenderpass_count; [exact G|]. rewrite E1, E2. exact H.
  - simpl. rewrite map_size_empty. lia.
Qed.

Lemma depth_index_nonneg d : 0 <= depth_index d.
Proof.
  unfold depth_index. destruct (d =? PixelFormat_Invalid).
  - unfold MAX_DEPTH_FORMATS. lia.
  - apply Z.mod_pos_bound. lia.
Qed.

(** X3. Every slot filled in the render-pass table lies inside the
    bounds checked by the assertion: color index at most [MAX_COLOR_FORMATS],
    depth index between 0 and [MAX_DEPTH_FORMATS]. *)
Theorem renderpass_keys_in_range (inst : Instance) (dev : Device) (sched : list Command)
    (ops : list Op) (rc : RenderpassCache) :
  run (RenderpassCache_new inst dev sched) ops = Some rc ->
  map_Forall (fun k _ => k.1.1 <= MAX_COLOR_FORMATS /\ 0 <= k.1.2 <= MAX_DEPTH_FORMATS)
    (cached_renderpasses rc).
Proof.
  intros R.
  apply (run_preserves
    (fun r => map_Forall (fun k _ => k.1.1 <= MAX_COLOR_FORMATS /\
                                      0 <= k.1.2 <= MAX_DEPTH_FORMATS)
                (cached_renderpasses r)))
    with (ops := ops) (rc := RenderpassCache_new inst dev sched); [|exact R|].
  - intros r op r' S H.
    destruct (step_renderpass_effect _ _ _ S)
      as [[-> _] | (r2 & r3 & c & d & b & rp & E1 & _ & G & -> & _)]; [exact H|].
    revert G. unfold GetRenderpass.
    destruct (index_assert (color_index c) (depth_index d)) eqn:Ha; simpl; [|discriminate].
    destruct (cached_renderpasses r2 !! _) as [h|].
    + intros [= _ <-]. rewrite E1. exact H.
    + unfold CreateRenderPass, createRenderPassUnique. simpl. intros [= _ <-].
      unfold_setters. apply map_Forall_insert_2.
      * unfold index_assert in Ha. apply andb_true_iff in Ha as [Hc Hd].
        apply Z.leb_le in Hc, Hd. simpl. pose proof (depth_index_nonneg d). lia.
      * rewrite E1. exact H.
  - apply map_Forall_empty.
Qed.

Lemma GetRenderpass_fb_log rc c d b h rc' :
  GetRenderpass rc c d b = Some (h, rc') ->
  created_framebuffers (device rc') = created_framebuffers (device rc).
Proof.
  unfold GetRenderpass.
  destruct (index_assert (color_index c) (depth_index d)); simpl; [|discriminate].
  destruct (cached_renderpasses rc !! _).
  - intros [= _ <-]. reflexivity.
  - unfold CreateRenderPass, createRenderPassUnique. simpl. intros [= _ <-]. reflexivity.
Qed.

(** X4. A [BeginRendering] that is not skipped, for an attachment identity
    already in the framebuffer map, creates no framebuffer: it leaves the
    map and the device's framebuffer log as they were and begins the pass
    with the cached framebuffer handle. *)
Theorem BeginRendering_reuses_framebuffer (rc : RenderpassCache) (fb : Framebuffer)
    (dc : bool) (c : ClearValue) (rc' : RenderpassCache) (h : VkFramebuffer) :
  framebuffers rc !! fb_info fb = Some h ->
  begin_is_noop (state rc) (ImageViews fb) dc c = false ->
  BeginRendering rc fb dc c = Some rc' ->
  framebuffers rc' = framebuffers rc /\
  created_framebuffers (device rc') = created_framebuffers (device rc) /\
  exists bi, scheduler rc' = scheduler (EndRendering rc) ++ [CmdBeginRenderPass bi] /\
             bi_framebuffer bi = h.
Proof.
  intros Hf Hn Hb.
  destruct (BeginRendering_decomp _ _ _ _ _ Hn Hb) as (rp & rc3 & G & Hc).
  destruct (GetRenderpass_frame _ _ _ _ _ _ G) as (_ & G1 & _ & G3 & _).
  pose proof (GetRenderpass_fb_log _ _ _ _ _ _ G) as G8.
  destruct (EndRendering_frame rc) as (_ & E2 & E3 & _).
  unfold_setters. rewrite E2 in G3. rewrite E3 in G8.
  destruct Hc as [(h' & Hf' & ->) | (Hf' & _)]; [|congruence].
  rewrite G3 in Hf'. rewrite Hf in Hf'. injection Hf' as <-.
  unfold_setters. split; [exact G3|]. split; [exact G8|].
  eexists. split; [rewrite G1; reflexivity|reflexivity].
Qed.

(** X5. A [BeginRendering] that is not skipped, for an attachment identity
    missing from the framebuffer map, creates exactly one framebuffer, for
    that identity and the render pass stored for
    [(color_index, depth_index, do_clear)], adds it to the map and begins
    the pass with that render pass and that framebuffer. *)
Theorem BeginRendering_creates_framebuffer (rc : RenderpassCache) (fb : Framebuffer)
    (dc : bool) (c : ClearValue) (rc' : RenderpassCache) :
  framebuffers rc !! fb_info fb = None ->
  begin_is_noop (state rc) (ImageViews fb) dc c = false ->
  BeginRendering rc fb dc c = Some rc' ->
  exists rp h,
    cached_renderpasses rc' !! (color_index (FormatColor fb), depth_index (FormatDepth fb), dc)
      = Some rp /\
    framebuffers rc' = <[fb_info fb := h]> (framebuffers rc) /\
    created_framebuffers (device rc') =
      created_framebuffers (device rc) ++ [(h, CreateFramebuffer_info (fb_info fb) rp)] /\
    scheduler rc' = scheduler (EndRendering rc) ++
      [CmdBeginRenderPass
         {| bi_renderPass := rp; bi_framebuffer := h; bi_renderArea := RenderArea fb;
            bi_clearValueCount := if dc then 1 else 0; bi_clearValue := c |}].
Proof.
  intros Hf Hn Hb.
  destruct (BeginRendering_decomp _ _ _ _ _ Hn Hb) as (rp & rc3 & G & Hc).
  destruct (GetRenderpass_frame _ _ _ _ _ _ G) as (_ & G1 & _ & G3 & _ & _ & G6 & _).
  pose proof (GetRenderpass_fb_log _ _ _ _ _ _ G) as G8.
  destruct (EndRendering_frame rc) as (_ & E2 & E3 & _).
  unfold_setters. rewrite E2 in G3. rewrite E3 in G8.
  destruct Hc as [(h' & Hf' & _) | (_ & ->)]; [rewrite G3 in Hf'; congruence|].
  exists rp, (next_handle (device rc3)). unfold_setters.
  rewrite G3, G8, G1. repeat split. exact G6.
Qed.

(** X6. [BeginRendering] terminates at the assertion of [GetRenderpass]
    exactly when it is not skipped and the framebuffer's color or depth
    format maps to an index out of range; an active pass with the same
    configuration is kept even for such formats. *)
Theorem BeginRendering_aborts_iff (rc : RenderpassCache) (fb : Framebuffer) (dc : bool)
    (c : ClearValue) :
  BeginRendering rc fb dc c = None <->
  begin_is_noop (state rc) (ImageViews fb) dc c = false /\
  (MAX_COLOR_FORMATS < color_index (FormatColor fb) \/
   MAX_DEPTH_FORMATS < depth_index (FormatDepth fb)).
Proof.
  assert (Hr : index_assert (color_index (FormatColor fb)) (depth_index (FormatDepth fb)) = false
               <-> MAX_COLOR_FORMATS < color_index (FormatColor fb) \/
                   MAX_DEPTH_FORMATS < depth_index (FormatDepth fb)).
  { unfold index_assert. rewrite andb_false_iff, !Z.leb_gt. tauto. }
  rewrite <- Hr.
  destruct (begin_is_noop (state rc) (ImageViews fb) dc c) eqn:Hn.
  - rewrite (BeginRendering_noop_true _ _ _ _ Hn). split; [discriminate|intros [? _]; discriminate].
  - unfold BeginRendering. rewrite Hn.
    destruct (GetRenderpass _ (Format fb Color) (Format fb Depth) dc) as [[rp rc3]|] eqn:G.
    + destruct (GetRenderpass_frame _ _ _ _ _ _ G) as (Ha & _). simpl in Ha.
      split; [|intros [_ Hf]; congruence].
      destruct (framebuffers rc3 !! _); simpl; discriminate.
    + apply GetRenderpass_None in G. simpl in G. tauto.
Qed.

(** X7. In every render pass description, the single subpass has no input
    attachment, one color reference exactly when there is a color format,
    and a depth/stencil reference exactly when there is a depth format; each
    reference (in the [eGeneral] layout) indexes, within [attachmentCount],
    the attachment of its own format. *)
Theorem CreateRenderPass_references (color depth : VkFormat) (load_op : AttachmentLoadOp) :
  let ci := CreateRenderPass_info color depth load_op in
  exists sp,
    rp_pSubpasses ci = [sp] /\
    sd_inputAttachmentCount sp = 0 /\
    sd_colorAttachmentCount sp = (if color =? eUndefined then 0 else 1) /\
    (if color =? eUndefined then True
     else exists a,
       ar_layout (sd_pColorAttachments sp) = eGeneral /\
       0 <= ar_attachment (sd_pColorAttachments sp) < rp_attachmentCount ci /\
       nth_error (rp_pAttachments ci) (Z.to_nat (ar_attachment (sd_pColorAttachments sp)))
         = Some a /\ ad_format a = color) /\
    (if depth =? eUndefined then sd_pDepthStencilAttachment sp = None
     else exists r a,
       sd_pDepthStencilAttachment sp = Some r /\ ar_layout r = eGeneral /\
       0 <= ar_attachment r < rp_attachmentCount ci /\
       nth_error (rp_pAttachments ci) (Z.to_nat (ar_attachment r)) = Some a /\
       ad_format a = depth).
Proof.
  cbv zeta. unfold CreateRenderPass_info.
  destruct (color =? eUndefined), (depth =? eUndefined); cbn;
    eexists; repeat split; repeat eexists; cbn; try lia.
Qed.

Lemma f32_eqb_refl w : f32_is_nan w = false -> f32_eqb w w = true.
Proof. intros H. unfold f32_eqb. rewrite H, Z.eqb_refl. reflexivity. Qed.

(** X8. A clear value whose depth is a NaN never matches the active
    configuration (NaN compares unequal to itself): [BeginRendering] with it
    during an active pass always ends that pass and begins a new one. *)
Theorem BeginRendering_nan_depth_restarts (rc : RenderpassCache) (fb : Framebuffer)
    (dc : bool) (c : ClearValue) (rc' : RenderpassCache) :
  st_rendering (state rc) = true ->
  f32_is_nan (cv_w0 c) = true ->
  BeginRendering rc fb dc c = Some rc' ->
  exists bi, scheduler rc' = scheduler rc ++ [CmdEndRenderPass; CmdBeginRenderPass bi].
Proof.
  intros Hr Hnan Hb.
  assert (Hn : begin_is_noop (state rc) (ImageViews fb) dc c = false).
  { unfold begin_is_noop, ClearDepthStencilValue_eqb, f32_eqb.
    cbn [depthStencil ds_depth ds_stencil]. rewrite Hnan. btauto. }
  destruct (BeginRendering_effect _ _ _ _ _ Hn Hb) as (rp & fbh & S & _).
  destruct (EndRendering_frame rc) as (_ & _ & _ & _ & _ & _ & E7).
  eexists. rewrite S, E7, Hr, <- app_assoc. reflexivity.
Qed.

(** X9. The depth comparison is a float comparison: while a pass is
    active, a new clear value whose depth is a zero of the other sign
    ([+0.0] against [-0.0]) and whose stencil is equal, with the same views
    and [do_clear], makes [BeginRendering] a no-op. *)
Theorem BeginRendering_signed_zero_noop (rc : RenderpassCache) (fb : Framebuffer)
    (dc : bool) (c : ClearValue) :
  st_rendering (state rc) = true ->
  views_eqb (st_views (state rc)) (ImageViews fb) = true ->
  st_do_clear (state rc) = dc ->
  f32_is_zero (cv_w0 (st_clear (state rc))) = true ->
  f32_is_zero (cv_w0 c) = true ->
  cv_w1 (st_clear (state rc)) = cv_w1 c ->
  BeginRendering rc fb dc c = Some rc.
Proof.
  intros Hr Hv Hd Hz1 Hz2 Hs. apply BeginRendering_noop_true.
  assert (Hnan : forall w, f32_is_zero w = true -> f32_is_nan w = false).
  { intros w Hz. unfold f32_is_zero, f32_is_nan in *. apply Z.eqb_eq in Hz.
    assert (Hm : Z.land w 8388607 = 0).
    { replace 8388607 with (Z.land 2147483647 8388607) by reflexivity.
      rewrite Z.land_assoc, Hz. reflexivity. }
    rewrite Hm. apply andb_false_r. }
  unfold begin_is_noop, ClearDepthStencilValue_eqb, f32_eqb.
  cbn [depthStencil ds_depth ds_stencil].
  rewrite Hv, Hd, eqb_reflx, Hr, Hs, Z.eqb_refl, (Hnan _ Hz1), (Hnan _ Hz2), Hz1, Hz2.
  btauto.
Qed.

(** X10. [GetRenderpass], called on its own (e.g. while building
    pipelines), records no command, changes neither the render state nor
    the framebuffer map nor the framebuffer log, and only adds slots to the
    render-pass table. *)
Theorem GetRenderpass_no_side_effects (rc : RenderpassCache) (c d : PixelFormat) (b : bool)
    (h : RenderPass) (rc' : RenderpassCache) :
  GetRenderpass rc c d b = Some (h, rc') ->
  scheduler rc' = scheduler rc /\ state rc' = state rc /\
  framebuffers rc' = framebuffers rc /\
  created_framebuffers (device rc') = created_framebuffers (device rc) /\
  table_incl rc rc'.
Proof.
  intros G.
  destruct (GetRenderpass_frame _ _ _ _ _ _ G) as (_ & G1 & G2 & G3 & _ & _ & _ & G7).
  repeat split; auto. eapply GetRenderpass_fb_log; exact G.
Qed.

(** X11. Ending twice is ending once: the second [EndRendering] finds the
    cache inactive and records nothing. *)
Theorem EndRendering_idempotent (rc : RenderpassCache) :
  EndRendering (EndRendering rc) = EndRendering rc.
Proof.
  destruct (EndRendering_frame rc) as (_ & _ & _ & _ & E5 & _).
  unfold EndRendering at 1. rewrite E5. reflexivity.
Qed.

(** X12. Repeating a successful [BeginRendering] with the same framebuffer,
    [do_clear] and clear value (whose depth is not a NaN) is a no-op. *)
Theorem BeginRendering_repeat_noop (rc : RenderpassCache) (fb : Framebuffer) (dc : bool)
    (c : ClearValue) (rc1 : RenderpassCache) :
  BeginRendering rc fb dc c = Some rc1 ->
  f32_is_nan (cv_w0 c) = false ->
  BeginRendering rc1 fb dc c = Some rc1.
Proof.
  intros Hb Hnan.
  destruct (begin_is_noop (state rc) (ImageViews fb) dc c) eqn:Hn.
  - rewrite (BeginRendering_noop_true _ _ _ _ Hn) in Hb. injection Hb as <-.
    apply BeginRendering_noop_true. exact Hn.
  - destruct (BeginRendering_effect _ _ _ _ _ Hn Hb) as (rp & fbh & _ & St & _).
    apply BeginRendering_noop_true. unfold begin_is_noop. rewrite St.
    cbn [st_views st_do_clear st_clear st_rendering].
    unfold views_eqb, ClearDepthStencilValue_eqb. cbn [depthStencil ds_depth ds_stencil].
    rewrite !Z.eqb_refl, eqb_reflx, f32_eqb_refl by exact Hnan. reflexivity.
Qed.

(** ** Witnesses of the further properties *)

Lemma commands_well_bracketed_witness :
  pass_nesting false (scheduler cache_A_ended) = Some (st_rendering (state cache_A_ended)).
Proof.
  apply (commands_well_bracketed instance0 device0 ops_A_ended cache_A_ended).
  vm_compute; reflexivity.
Defined.

Lemma renderpasses_created_once_witness :
  length (created_renderpasses (device cache_A_ended)) =
    (length (created_renderpasses device0) + size (cached_renderpasses cache_A_ended))%nat.
Proof.
  apply (renderpasses_created_once instance0 device0 [] ops_A_ended cache_A_ended).
  vm_compute; reflexivity.
Defined.

Lemma renderpass_keys_in_range_witness :
  map_Forall (fun k _ => k.1.1 <= MAX_COLOR_FORMATS /\ 0 <= k.1.2 <= MAX_DEPTH_FORMATS)
    (cached_renderpasses cache_A_ended).
Proof.
  apply (renderpass_keys_in_range instance0 device0 [] ops_A_ended cache_A_ended).
  vm_compute; reflexivity.
Defined.

Lemma BeginRendering_reuses_framebuffer_witness :
  framebuffers cache_A_again = framebuffers cache_A_ended /\
  created_framebuffers (device cache_A_again) = created_framebuffers (device cache_A_ended) /\
  exists bi, scheduler cache_A_again = scheduler (EndRendering cache_A_ended) ++
               [CmdBeginRenderPass bi] /\ bi_framebuffer bi = 2.
Proof.
  apply (BeginRendering_reuses_framebuffer cache_A_ended fbA false ClearValue_zero
           cache_A_again 2); vm_compute; reflexivity.
Defined.

Lemma BeginRendering_creates_framebuffer_witness :
  exists rp h,
    cached_renderpasses cache_zero !! (color_index (FormatColor fbA),
                                       depth_index (FormatDepth fbA), false) = Some rp /\
    framebuffers cache_zero = <[fb_info fbA := h]> (framebuffers cache0) /\
    created_framebuffers (device cache_zero) =
      created_framebuffers (device cache0) ++ [(h, CreateFramebuffer_info (fb_info fbA) rp)] /\
    scheduler cache_zero = scheduler (EndRendering cache0) ++
      [CmdBeginRenderPass
         {| bi_renderPass := rp; bi_framebuffer := h; bi_renderArea := RenderArea fbA;
            bi_clearValueCount := if false then 1 else 0; bi_clearValue := ClearValue_zero |}].
Proof.
  apply (BeginRendering_creates_framebuffer cache0 fbA false ClearValue_zero cache_zero);
    vm_compute; reflexivity.
Defined.

Lemma BeginRendering_nan_depth_restarts_witness :
  exists bi, scheduler cache_red_nan = scheduler cache_red ++
               [CmdEndRenderPass; CmdBeginRenderPass bi].
Proof.
  apply (BeginRendering_nan_depth_restarts cache_red fbA true clear_nan cache_red_nan);
    vm_compute; reflexivity.
Defined.

Lemma BeginRendering_signed_zero_noop_witness :
  BeginRendering cache_zero fbA false clear_negzero = Some cache_zero.
Proof.
  apply (BeginRendering_signed_zero_noop cache_zero fbA false clear_negzero);
    vm_compute; reflexivity.
Defined.

Lemma GetRenderpass_no_side_effects_witness :
  scheduler cache_rp = scheduler cache0 /\ state cache_rp = state cache0 /\
  framebuffers cache_rp = framebuffers cache0 /\
  created_framebuffers (device cache_rp) = created_framebuffers (device cache0) /\
  table_incl cache0 cache_rp.
Proof.
  apply (GetRenderpass_no_side_effects cache0 0 14 true 1 cache_rp).
  vm_compute; reflexivity.
Defined.

Lemma BeginRendering_repeat_noop_witness :
  BeginRendering cache_red fbA true clear_red = Some cache_red.
Proof.
  apply (BeginRendering_repeat_noop cache0 fbA true clear_red cache_red);
    vm_compute; reflexivity.
Defined.
